(** * ascvdrisk: the 2013 Pooled Cohort Equations calculator of [app.py]

    A shallow embedding of [ascvd_10y_risk_pce] and of the part of the
    Streamlit page that consumes its result, followed by the properties of
    the specification that concern them.

    Conventions of the embedding.
    - A Python [float] is a real number.  Rounding is not modelled; the
      partiality of the [math] functions is: [math.log] raises [ValueError]
      outside its domain and [math.exp] raises [OverflowError] when its
      result leaves the binary64 range.  Infinities and NaN are not inputs.
      The float the code returns follows the real number of the model up
      to rounding: it can be exactly 0.0 or 100.0 where the real number is
      strictly inside, and two inputs one rounding step apart can come out
      in either order.  The statements that compare two returned risks
      are therefore not strict, and they are made for inputs whose linear
      predictors differ by far more than rounding: a flag switched, or
      two values of the form at least one step apart.
    - A Python [str] is a [string] whose characters are the code points
      0..255 (Latin-1); [str.lower] and [str.strip] are modelled exactly on
      that range.
    - A raised exception is the left injection of the result.
    - The [dict] of coefficients, which is only read at constant keys, is a
      record. *)

From Stdlib Require Import Reals Lra Lia ZArith NArith Bool List.
From Stdlib Require Import Ascii String.
Import ListNotations.

Local Open Scope R_scope.
Local Open Scope string_scope.

(** ** Exceptions and the result of a call *)

Inductive exn : Type :=
| ValueError (msg : string)
| OverflowError (msg : string).

Definition result (A : Type) : Type := (exn + A)%type.

Definition ret {A : Type} (a : A) : result A := inr a.
Definition raise {A : Type} (e : exn) : result A := inl e.
Definition bind {A B : Type} (m : result A) (k : A -> result B) : result B :=
  match m with
  | inl e => inl e
  | inr a => k a
  end.

Notation "x <- m ;; k" := (bind m (fun x => k))
  (at level 61, m at next level, right associativity).

(** ** The string methods used by the engine *)

Module PyStr.

(** [str.lower] on one code point below 256: A-Z and the capital letters
    of the Latin-1 supplement (U+00C0..U+00DE without the sign U+00D7). *)
Definition lower_char (c : ascii) : ascii :=
  let n := N_of_ascii c in
  if ((65 <=? n) && (n <=? 90)
      || (192 <=? n) && (n <=? 222) && negb (n =? 215))%N
  then ascii_of_N (n + 32)
  else c.

Fixpoint lower (s : string) : string :=
  match s with
  | EmptyString => EmptyString
  | String c s' => String (lower_char c) (lower s')
  end.

(** [str.isspace] on one code point below 256. *)
Definition is_space (c : ascii) : bool :=
  let n := N_of_ascii c in
  ((9 <=? n) && (n <=? 13) || (28 <=? n) && (n <=? 32)
   || (n =? 133) || (n =? 160))%N.

Fixpoint lstrip (s : string) : string :=
  match s with
  | EmptyString => EmptyString
  | String c s' => if is_space c then lstrip s' else s
  end.

Fixpoint rstrip (s : string) : string :=
  match s with
  | EmptyString => EmptyString
  | String c s' =>
      match rstrip s' with
      | EmptyString => if is_space c then EmptyString else String c EmptyString
      | r => String c r
      end
  end.

(** [s.strip()] with no argument. *)
Definition strip (s : string) : string := rstrip (lstrip s).

(** [s.startswith(p)] *)
Definition startswith (s p : string) : bool := String.prefix p s.

End PyStr.

(** ** The [math] functions used by the engine *)

Module PyMath.

(** Reals from this bound on round to infinity in binary64. *)
Definition overflow_bound : R := IZR (2 ^ 1024 - 2 ^ 970).

(** [math.log(x)]: the domain error for [x <= 0]. *)
Definition log (x : R) : result R :=
  if Rlt_dec 0 x then ret (ln x)
  else raise (ValueError "math domain error").

(** [math.exp(x)]: the range error when the result overflows. *)
Definition exp (x : R) : result R :=
  if Rle_dec overflow_bound (Rtrigo_def.exp x)
  then raise (OverflowError "math range error")
  else ret (Rtrigo_def.exp x).

(** [b ** e] on floats, for a positive base. *)
Definition pow (b e : R) : R := Rpower b e.

End PyMath.

(** ** Coefficient sets *)

Record coefficients : Type := dict {
  CAge : R; CSqAge : R;
  CTotalChol : R; CAgeTotalChol : R;
  CHDLChol : R; CAgeHDLChol : R;
  COnHypertensionMeds : R; CAgeOnHypertensionMeds : R;
  COffHypertensionMeds : R; CAgeOffHypertensionMeds : R;
  CSmoker : R; CAgeSmoker : R;
  CDiabetes : R;
  S10 : R; MeanTerms : R
}.

Definition female_white : coefficients :=
  dict (-29.799) 4.884
       13.54 (-3.114)
       (-13.578) 3.149
       2.019 0.0
       1.957 0.0
       7.574 (-1.665)
       0.661
       0.9665 (-29.18).

Definition female_black : coefficients :=
  dict 17.114 0.0
       0.94 0.0
       (-18.92) 4.475
       29.291 (-6.432)
       27.82 (-6.087)
       0.691 0.0
       0.874
       0.9533 86.61.

Definition male_white : coefficients :=
  dict 12.344 0.0
       11.853 (-2.664)
       (-7.99) 1.769
       1.797 0.0
       1.764 0.0
       7.837 (-1.795)
       0.658
       0.9144 61.18.

Definition male_black : coefficients :=
  dict 2.469 0.0
       0.302 0.0
       (-0.307) 0.0
       1.916 0.0
       1.809 0.0
       0.549 0.0
       0.645
       0.8954 19.54.

(** ** The engine, [ascvd_10y_risk_pce] *)

(** Lines 47-52: normalisation of the two strings, the membership test on
    [race] and the aliasing of "other". *)
Definition normalize (s : string) : string := PyStr.strip (PyStr.lower s).

Definition resolve_race (race : string) : result string :=
  let race := normalize race in
  if negb ((race =? "white") || (race =? "black") || (race =? "other"))
  then raise (ValueError "race must be 'white', 'black', or 'other'")
  else if race =? "other" then ret "white" else ret race.

(** Lines 55-100: the chain of conditionals that selects the set. *)
Definition select_coefficients (sex race : string) : result coefficients :=
  if (sex =? "female") && (race =? "white") then ret female_white
  else if (sex =? "female") && (race =? "black") then ret female_black
  else if (sex =? "male") && (race =? "white") then ret male_white
  else if (sex =? "male") && (race =? "black") then ret male_black
  else raise (ValueError "sex must be 'male' or 'female'").

(** Lines 108-136: the accumulation of [terms]. *)
Definition accumulate_terms (c : coefficients)
    (ln_age ln_tc ln_hdl ln_sbp : R) (on_treatment smoker diabetes : bool) : R :=
  let terms :=
    CAge c * ln_age +
    CSqAge c * (ln_age ^ 2) +
    CTotalChol c * ln_tc +
    CAgeTotalChol c * ln_age * ln_tc +
    CHDLChol c * ln_hdl +
    CAgeHDLChol c * ln_age * ln_hdl in
  let terms :=
    if on_treatment
    then terms + (COnHypertensionMeds c * ln_sbp +
                  CAgeOnHypertensionMeds c * ln_age * ln_sbp)
    else terms + (COffHypertensionMeds c * ln_sbp +
                  CAgeOffHypertensionMeds c * ln_age * ln_sbp) in
  let terms :=
    if smoker then terms + (CSmoker c + CAgeSmoker c * ln_age) else terms in
  let terms :=
    if diabetes then terms + CDiabetes c else terms in
  terms.

Definition ascvd_10y_risk_pce (age : R) (sex race : string) (tc hdl sbp : R)
    (on_treatment smoker diabetes : bool) : result R :=
  let sex := normalize sex in
  race <- resolve_race race ;;
  c <- select_coefficients sex race ;;
  ln_age <- PyMath.log age ;;
  ln_tc <- PyMath.log tc ;;
  ln_hdl <- PyMath.log hdl ;;
  ln_sbp <- PyMath.log sbp ;;
  let terms :=
    accumulate_terms c ln_age ln_tc ln_hdl ln_sbp on_treatment smoker diabetes in
  e <- PyMath.exp (terms - MeanTerms c) ;;
  let risk_fraction := 1.0 - PyMath.pow (S10 c) e in
  ret (risk_fraction * 100.0).

(** ** The page: what happens on submission (lines 209-270) *)

Module Page.

(** Comparison of two floats, as a boolean. *)
Definition lt (x y : R) : bool := if Rlt_dec x y then true else false.

(** Python's [min(a, b)] and [max(a, b)] on two arguments: the first one
    unless the second is strictly beyond it. *)
Definition min (a b : R) : R := if lt b a then b else a.
Definition max (a b : R) : R := if lt a b then b else a.



(** Line 232. *)
Definition clip (risk : R) : R := max 0.0 (min risk 100.0).

(** Lines 235-246. *)
Definition categorize (risk : R) : string * string :=
  if lt risk 5 then ("Low risk (<5%)", "green")
  else if lt risk 7.5 then ("Borderline risk (5–7.4%)", "orange")
  else if lt risk 20 then ("Intermediate risk (7.5–19.9%)", "orange")
  else ("High risk (≥20%)", "red").


End Page.

(** ** The vocabulary of the specification

    The enumerations of the data model, the table of the four buckets and
    the formula as the specification words it; the theorems below relate
    them to the code. *)

Inductive Sex : Type := Male | Female.
Inductive Race : Type := White | Black | Other.

Definition sex_name (s : Sex) : string :=
  match s with Male => "male" | Female => "female" end.

Definition race_name (r : Race) : string :=
  match r with White => "white" | Black => "black" | Other => "other" end.

(** "other" is an alias of "white". *)
Definition resolved (r : Race) : Race :=
  match r with Other => White | _ => r end.

Definition coefficient_set (s : Sex) (r : Race) : coefficients :=
  match s, resolved r with
  | Female, Black => female_black
  | Female, _ => female_white
  | Male, Black => male_black
  | Male, _ => male_white
  end.

(** Step 2 of the formula: the linear predictor [L]. *)
Definition linear_predictor (c : coefficients) (age tc hdl sbp : R)
    (on_treatment smoker diabetic : bool) : R :=
  CAge c * ln age + CSqAge c * (ln age * ln age)
  + CTotalChol c * ln tc + CAgeTotalChol c * ln age * ln tc
  + CHDLChol c * ln hdl + CAgeHDLChol c * ln age * ln hdl
  + (if on_treatment
     then COnHypertensionMeds c * ln sbp
          + CAgeOnHypertensionMeds c * ln age * ln sbp
     else COffHypertensionMeds c * ln sbp
          + CAgeOffHypertensionMeds c * ln age * ln sbp)
  + (if smoker then CSmoker c + CAgeSmoker c * ln age else 0)
  + (if diabetic then CDiabetes c else 0).

(** Steps 3 and 4 without the clamp: the percentage. *)
Definition risk_percent (c : coefficients) (L : R) : R :=
  100 * (1 - Rpower (S10 c) (exp (L - MeanTerms c))).

(** The messages of the two checks of the engine. *)
Definition race_error : exn :=
  ValueError "race must be 'white', 'black', or 'other'".
Definition sex_error : exn :=
  ValueError "sex must be 'male' or 'female'".

Definition recognized_sex (sex : string) : Prop :=
  exists s : Sex, normalize sex = sex_name s.
Definition recognized_race (race : string) : Prop :=
  exists r : Race, normalize race = race_name r.

(** The first stage of the engine on its own: lines 47-100. *)
Definition lookup (sex race : string) : result coefficients :=
  race <- resolve_race race ;;
  select_coefficients (normalize sex) race.

(** The second stage: lines 102-142, for a set already selected. *)
Definition risk_of (c : coefficients) (age tc hdl sbp : R)
    (on_treatment smoker diabetes : bool) : result R :=
  ln_age <- PyMath.log age ;;
  ln_tc <- PyMath.log tc ;;
  ln_hdl <- PyMath.log hdl ;;
  ln_sbp <- PyMath.log sbp ;;
  let terms :=
    accumulate_terms c ln_age ln_tc ln_hdl ln_sbp on_treatment smoker diabetes in
  e <- PyMath.exp (terms - MeanTerms c) ;;
  let risk_fraction := 1.0 - PyMath.pow (S10 c) e in
  ret (risk_fraction * 100.0).

(** The two exceptions of the [math] module, as values. *)
Definition domain_error : exn := ValueError "math domain error".
Definition range_error : exn := OverflowError "math range error".

(** The sex and race the page passes to the engine. *)
Definition page_sex (sex : string) : Sex :=
  if PyStr.startswith (PyStr.lower sex) "m" then Male else Female.

Definition page_race (race : string) : Race :=
  if PyStr.startswith (PyStr.lower race) "black" then Black else White.


(** The categories of the specification and the labels the page gives
    them. *)
Inductive Category : Type := Low | Borderline | Intermediate | High.

Definition category_label (k : Category) : string :=
  match k with
  | Low => "Low risk (<5%)"
  | Borderline => "Borderline risk (5–7.4%)"
  | Intermediate => "Intermediate risk (7.5–19.9%)"
  | High => "High risk (≥20%)"
  end.

(** ** Letter case and surrounding whitespace *)






(** ** The outcomes of a call *)

(** A box that contains every value the form can submit (age 20-90,
    total cholesterol 100-400, HDL 10-150, pressure 80-250). *)
Definition in_box (age tc hdl sbp : R) : Prop :=
  1 <= age <= 256 /\ 1 <= tc <= 512 /\ 1 <= hdl <= 256 /\ 1 <= sbp <= 256.

(** Every outcome of the engine is one of five. *)
Inductive outcome (age : R) (sex race : string) (tc hdl sbp : R)
    (on_treatment smoker diabetes : bool) (out : result R) : Prop :=
| bad_race : ~ recognized_race race -> out = raise race_error ->
    outcome age sex race tc hdl sbp on_treatment smoker diabetes out
| bad_sex :
    recognized_race race -> ~ recognized_sex sex ->
    out = raise sex_error ->
    outcome age sex race tc hdl sbp on_treatment smoker diabetes out
| out_of_domain (s : Sex) (r : Race) :
    normalize sex = sex_name s -> normalize race = race_name r ->
    age <= 0 \/ tc <= 0 \/ hdl <= 0 \/ sbp <= 0 ->
    out = raise domain_error ->
    outcome age sex race tc hdl sbp on_treatment smoker diabetes out
| out_of_range (s : Sex) (r : Race) :
    normalize sex = sex_name s -> normalize race = race_name r ->
    0 < age -> 0 < tc -> 0 < hdl -> 0 < sbp ->
    PyMath.overflow_bound <=
      exp (linear_predictor (coefficient_set s r) age tc hdl sbp
             on_treatment smoker diabetes - MeanTerms (coefficient_set s r)) ->
    out = raise range_error ->
    outcome age sex race tc hdl sbp on_treatment smoker diabetes out
| value (s : Sex) (r : Race) :
    normalize sex = sex_name s -> normalize race = race_name r ->
    0 < age -> 0 < tc -> 0 < hdl -> 0 < sbp ->
    exp (linear_predictor (coefficient_set s r) age tc hdl sbp
           on_treatment smoker diabetes - MeanTerms (coefficient_set s r))
      < PyMath.overflow_bound ->
    out = ret (risk_percent (coefficient_set s r)
                 (linear_predictor (coefficient_set s r) age tc hdl sbp
                    on_treatment smoker diabetes)) ->
    outcome age sex race tc hdl sbp on_treatment smoker diabetes out.

(** ** Fixed-point arithmetic for numeric bounds

    Bounds on the logarithms of concrete inputs are computed on integers:
    [z] stands for [z / 2 ^ 40]. *)

Definition scale : Z := 1099511627776.

Definition fixed (z : Z) : R := IZR z / IZR scale.

(** [k] squarings, each rounded down, and each rounded up. *)
Fixpoint sq_down (k : nat) (z : Z) : Z :=
  match k with
  | O => z
  | S k' => let y := sq_down k' z in (y * y / scale)%Z
  end.

Fixpoint sq_up (k : nat) (z : Z) : Z :=
  match k with
  | O => z
  | S k' => let y := sq_up k' z in ((y * y + (scale - 1)) / scale)%Z
  end.

(** The coefficient of [ln hdl] in the linear predictor. *)
Definition hdl_slope (c : coefficients) (age : R) : R :=
  CHDLChol c + CAgeHDLChol c * ln age.

(** ** The form (lines 163-207)

    Streamlit keeps a number input within its bounds and a radio or select
    box within its options; [submitted] says that of the values the page
    reads after a submission. *)

Module Form.

Record number_input : Type := {
  min_value : R; max_value : R; value : R; step : R
}.

Definition tc_input : number_input :=
  {| min_value := 100.0; max_value := 400.0; value := 213.0; step := 1.0 |}.
Definition hdl_input : number_input :=
  {| min_value := 10.0; max_value := 150.0; value := 50.0; step := 1.0 |}.
Definition sbp_input : number_input :=
  {| min_value := 80.0; max_value := 250.0; value := 120.0; step := 1.0 |}.


Definition accepts (w : number_input) (x : R) : Prop :=
  min_value w <= x <= max_value w.


End Form.


(** A string that does not begin with whitespace. *)
Definition no_leading_space (s : string) : bool :=
  match s with
  | EmptyString => true
  | String c _ => negb (PyStr.is_space c)
  end.

(** The ages up to which HDL is protective, bucket by bucket. *)
Definition hdl_protective_age (s : Sex) (r : Race) (age : R) : Prop :=
  match s, resolved r with
  | Male, Black => True
  | Male, _ => age <= 91
  | Female, Black => age <= 68
  | Female, _ => age <= 74
  end.

(** * Properties *)

(** ** Tactics *)

(** Case analysis on the 256 characters. *)
Ltac each_char c :=
  destruct c as [[] [] [] [] [] [] [] []].

(** Reads the constants of a selected set without touching the numerals. *)
Ltac coefficients_values :=
  cbn [coefficient_set resolved
       female_white female_black male_white male_black
       CAge CSqAge CTotalChol CAgeTotalChol CHDLChol CAgeHDLChol
       COnHypertensionMeds CAgeOnHypertensionMeds
       COffHypertensionMeds CAgeOffHypertensionMeds
       CSmoker CAgeSmoker CDiabetes S10 MeanTerms] in *.

(** ** The engine in two stages *)

Lemma ascvd_stages age sex race tc hdl sbp on_treatment smoker diabetes :
  ascvd_10y_risk_pce age sex race tc hdl sbp on_treatment smoker diabetes =
  (c <- lookup sex race ;;
   risk_of c age tc hdl sbp on_treatment smoker diabetes).
Proof.
  unfold ascvd_10y_risk_pce, lookup, risk_of.
  destruct (resolve_race race) as [e|race']; [reflexivity|]. cbn [bind].
  destruct (select_coefficients (normalize sex) race'); reflexivity.
Qed.

(** ** Coefficient lookup *)

Lemma resolve_race_recognized race r :
  normalize race = race_name r ->
  resolve_race race = ret (race_name (resolved r)).
Proof.
  intros H. unfold resolve_race. rewrite H. destruct r; reflexivity.
Qed.

Lemma resolve_race_unrecognized race :
  ~ recognized_race race -> resolve_race race = raise race_error.
Proof.
  intros H. unfold resolve_race.
  destruct (normalize race =? "white") eqn:Ew.
  { apply String.eqb_eq in Ew. exfalso. apply H. now exists White. }
  destruct (normalize race =? "black") eqn:Eb.
  { apply String.eqb_eq in Eb. exfalso. apply H. now exists Black. }
  destruct (normalize race =? "other") eqn:Eo.
  { apply String.eqb_eq in Eo. exfalso. apply H. now exists Other. }
  reflexivity.
Qed.

Lemma select_recognized s r :
  select_coefficients (sex_name s) (race_name (resolved r)) =
  ret (coefficient_set s r).
Proof. destruct s, r; reflexivity. Qed.

Lemma select_unrecognized sex r :
  (forall s, sex <> sex_name s) ->
  select_coefficients sex (race_name (resolved r)) = raise sex_error.
Proof.
  intros H. unfold select_coefficients.
  destruct (sex =? "female") eqn:Ef.
  { apply String.eqb_eq in Ef. now destruct (H Female). }
  destruct (sex =? "male") eqn:Em.
  { apply String.eqb_eq in Em. now destruct (H Male). }
  reflexivity.
Qed.

Lemma lookup_recognized sex race s r :
  normalize sex = sex_name s -> normalize race = race_name r ->
  lookup sex race = ret (coefficient_set s r).
Proof.
  intros Hs Hr. unfold lookup.
  rewrite (resolve_race_recognized _ _ Hr). cbn [bind ret].
  rewrite Hs. apply select_recognized.
Qed.

Lemma lookup_bad_race sex race :
  ~ recognized_race race -> lookup sex race = raise race_error.
Proof.
  intros H. unfold lookup. now rewrite resolve_race_unrecognized.
Qed.

Lemma lookup_bad_sex sex race :
  recognized_race race -> ~ recognized_sex sex ->
  lookup sex race = raise sex_error.
Proof.
  intros [r Hr] Hs. unfold lookup.
  rewrite (resolve_race_recognized _ _ Hr). cbn [bind ret].
  apply select_unrecognized. intros s E. apply Hs. now exists s.
Qed.

Lemma recognized_sex_dec sex : {recognized_sex sex} + {~ recognized_sex sex}.
Proof.
  destruct (string_dec (normalize sex) "male") as [E|N1].
  { left. now exists Male. }
  destruct (string_dec (normalize sex) "female") as [E|N2].
  { left. now exists Female. }
  right. intros [[] E]; cbn in E; congruence.
Qed.

Lemma recognized_race_dec race :
  {recognized_race race} + {~ recognized_race race}.
Proof.
  destruct (string_dec (normalize race) "white") as [E|N1].
  { left. now exists White. }
  destruct (string_dec (normalize race) "black") as [E|N2].
  { left. now exists Black. }
  destruct (string_dec (normalize race) "other") as [E|N3].
  { left. now exists Other. }
  right. intros [[] E]; cbn in E; congruence.
Qed.

(** ** The numeric stage *)

Lemma log_pos x : 0 < x -> PyMath.log x = ret (ln x).
Proof. intros H. unfold PyMath.log. now destruct (Rlt_dec 0 x). Qed.

Lemma log_nonpos x : x <= 0 -> PyMath.log x = raise domain_error.
Proof.
  intros H. unfold PyMath.log. destruct (Rlt_dec 0 x); [lra|reflexivity].
Qed.

Lemma exp_in_range x :
  exp x < PyMath.overflow_bound -> PyMath.exp x = ret (exp x).
Proof.
  intros H. unfold PyMath.exp.
  destruct (Rle_dec PyMath.overflow_bound (exp x)); [lra|reflexivity].
Qed.

Lemma exp_overflow x :
  PyMath.overflow_bound <= exp x -> PyMath.exp x = raise range_error.
Proof.
  intros H. unfold PyMath.exp.
  destruct (Rle_dec PyMath.overflow_bound (exp x)); [reflexivity|lra].
Qed.

(** The accumulated [terms] are the linear predictor of the formula. *)
Lemma accumulate_terms_linear_predictor c age tc hdl sbp on_treatment smoker diabetes :
  accumulate_terms c (ln age) (ln tc) (ln hdl) (ln sbp)
    on_treatment smoker diabetes =
  linear_predictor c age tc hdl sbp on_treatment smoker diabetes.
Proof.
  unfold accumulate_terms, linear_predictor.
  destruct on_treatment, smoker, diabetes; ring.
Qed.

Section NumericStage.

Variable c : coefficients.
Variables age tc hdl sbp : R.
Variables on_treatment smoker diabetes : bool.

Let L := linear_predictor c age tc hdl sbp on_treatment smoker diabetes.

Hypothesis age_pos : 0 < age.
Hypothesis tc_pos : 0 < tc.
Hypothesis hdl_pos : 0 < hdl.
Hypothesis sbp_pos : 0 < sbp.

Lemma risk_of_exp :
  risk_of c age tc hdl sbp on_treatment smoker diabetes =
  (e <- PyMath.exp (L - MeanTerms c) ;;
   ret ((1.0 - PyMath.pow (S10 c) e) * 100.0)).
Proof.
  unfold risk_of.
  rewrite !log_pos by assumption. cbn [bind ret].
  now rewrite accumulate_terms_linear_predictor.
Qed.

Lemma risk_of_value :
  exp (L - MeanTerms c) < PyMath.overflow_bound ->
  risk_of c age tc hdl sbp on_treatment smoker diabetes =
  ret (risk_percent c L).
Proof.
  intros H. rewrite risk_of_exp, (exp_in_range _ H). cbn [bind ret].
  unfold risk_percent, PyMath.pow. f_equal. lra.
Qed.

Lemma risk_of_range_error :
  PyMath.overflow_bound <= exp (L - MeanTerms c) ->
  risk_of c age tc hdl sbp on_treatment smoker diabetes = raise range_error.
Proof.
  intros H. now rewrite risk_of_exp, (exp_overflow _ H).
Qed.

End NumericStage.

Lemma risk_of_domain_error c age tc hdl sbp on_treatment smoker diabetes :
  age <= 0 \/ tc <= 0 \/ hdl <= 0 \/ sbp <= 0 ->
  risk_of c age tc hdl sbp on_treatment smoker diabetes = raise domain_error.
Proof.
  intros H. unfold risk_of.
  destruct (Rlt_dec 0 age) as [Ha|Ha];
    [rewrite (log_pos _ Ha)|rewrite log_nonpos by lra; reflexivity].
  destruct (Rlt_dec 0 tc) as [Ht|Ht];
    [rewrite (log_pos _ Ht)|rewrite log_nonpos by lra; reflexivity].
  destruct (Rlt_dec 0 hdl) as [Hh|Hh];
    [rewrite (log_pos _ Hh)|rewrite log_nonpos by lra; reflexivity].
  destruct (Rlt_dec 0 sbp) as [Hs|Hs];
    [lra|rewrite log_nonpos by lra; reflexivity].
Qed.

(** The baseline survival of every bucket is a probability strictly
    between 0 and 1. *)
Lemma S10_range s r :
  0 < S10 (coefficient_set s r) < 1.
Proof. destruct s, r; cbn; lra. Qed.

(** The percentage of the formula is strictly inside (0, 100). *)
Lemma risk_percent_range c L :
  0 < S10 c < 1 -> 0 < risk_percent c L < 100.
Proof.
  intros [H0 H1]. unfold risk_percent, Rpower.
  assert (He : 0 < exp (L - MeanTerms c)) by apply exp_pos.
  assert (Hl : ln (S10 c) < 0).
  { rewrite <- ln_1. now apply ln_increasing. }
  assert (Hp : 0 < exp (exp (L - MeanTerms c) * ln (S10 c))) by apply exp_pos.
  assert (Hq : exp (exp (L - MeanTerms c) * ln (S10 c)) < 1).
  { apply Rlt_le_trans with (exp 0); [apply exp_increasing; nra|].
    rewrite exp_0. lra. }
  lra.
Qed.

(** ** Bounds on [exp] and [ln]

    Concrete inputs need numeric bounds on logarithms; they come from
    [1 + y <= exp y] applied at [y = x / 2 ^ k] and [k] squarings of a
    fixed-point number. *)

Lemma exp_mult_INR (n : nat) (y : R) : exp (INR n * y) = exp y ^ n.
Proof.
  induction n as [|n IH].
  - cbn. rewrite Rmult_0_l. apply exp_0.
  - rewrite S_INR, Rmult_plus_distr_r, Rmult_1_l, exp_plus, IH. cbn. ring.
Qed.

Lemma scale_pos : 0 < IZR scale.
Proof. apply IZR_lt. reflexivity. Qed.

Lemma pow_2_pow (x : R) (k : nat) : x ^ (2 ^ S k) = x ^ (2 ^ k) * x ^ (2 ^ k).
Proof.
  replace (2 ^ S k)%nat with (2 ^ k + 2 ^ k)%nat by (cbn; lia).
  apply pow_add.
Qed.

Lemma sq_down_nonneg k z : (0 <= z)%Z -> (0 <= sq_down k z)%Z.
Proof.
  intros Hz. induction k as [|k IH]; cbn; [assumption|].
  apply Z.div_pos; [nia|reflexivity].
Qed.

Lemma sq_up_nonneg k z : (0 <= z)%Z -> (0 <= sq_up k z)%Z.
Proof.
  intros Hz. induction k as [|k IH]; cbn; [assumption|].
  apply Z.div_pos; [|reflexivity]. unfold scale. nia.
Qed.

Lemma fixed_div_down (a : Z) : fixed (a / scale) <= fixed a / IZR scale.
Proof.
  pose proof scale_pos as HS. unfold fixed.
  apply Rmult_le_reg_r with (IZR scale * IZR scale); [nra|].
  replace (IZR (a / scale) / IZR scale * (IZR scale * IZR scale))
    with (IZR scale * IZR (a / scale)) by (field; lra).
  replace (IZR a / IZR scale / IZR scale * (IZR scale * IZR scale))
    with (IZR a) by (field; lra).
  rewrite <- mult_IZR. apply IZR_le. apply Z.mul_div_le. reflexivity.
Qed.

Lemma fixed_div_up (a : Z) :
  fixed a / IZR scale <= fixed ((a + (scale - 1)) / scale).
Proof.
  pose proof scale_pos as HS. unfold fixed.
  apply Rmult_le_reg_r with (IZR scale * IZR scale); [nra|].
  replace (IZR ((a + (scale - 1)) / scale) / IZR scale
           * (IZR scale * IZR scale))
    with (IZR scale * IZR ((a + (scale - 1)) / scale)) by (field; lra).
  replace (IZR a / IZR scale / IZR scale * (IZR scale * IZR scale))
    with (IZR a) by (field; lra).
  rewrite <- mult_IZR. apply IZR_le.
  pose proof (Z.mul_succ_div_gt (a + (scale - 1)) scale eq_refl). lia.
Qed.

Lemma fixed_square (y : Z) : fixed (y * y) / IZR scale = fixed y * fixed y.
Proof.
  pose proof scale_pos. unfold fixed. rewrite mult_IZR. field. lra.
Qed.

Lemma sq_down_le k z :
  (0 <= z)%Z -> fixed (sq_down k z) <= fixed z ^ (2 ^ k).
Proof.
  intros Hz. induction k as [|k IH].
  - cbn. lra.
  - rewrite pow_2_pow. cbn [sq_down].
    eapply Rle_trans; [apply fixed_div_down|]. rewrite fixed_square.
    assert (H0 : 0 <= fixed (sq_down k z)).
    { unfold fixed. apply Rmult_le_pos.
      - apply IZR_le. now apply sq_down_nonneg.
      - left. apply Rinv_0_lt_compat, scale_pos. }
    nra.
Qed.

Lemma sq_up_ge k z :
  (0 <= z)%Z -> fixed z ^ (2 ^ k) <= fixed (sq_up k z).
Proof.
  intros Hz. induction k as [|k IH].
  - cbn. lra.
  - rewrite pow_2_pow. cbn [sq_up].
    eapply Rle_trans; [|apply fixed_div_up]. rewrite fixed_square.
    assert (H0 : 0 <= fixed z ^ (2 ^ k)).
    { apply pow_le. unfold fixed. apply Rmult_le_pos.
      - now apply IZR_le.
      - left. apply Rinv_0_lt_compat, scale_pos. }
    nra.
Qed.

Lemma exp_pow_2 (k : nat) (x : R) : exp x = exp (x / 2 ^ k) ^ (2 ^ k).
Proof.
  rewrite <- exp_mult_INR. f_equal. rewrite pow_INR. 
  change (INR 2) with 2. field. apply pow_nonzero. lra.
Qed.

(** [(1 + x / n) ^ n <= exp x] at [n = 2 ^ k], computed from below. *)
Lemma exp_ge_fixed (k : nat) (z : Z) (x : R) :
  (0 <= z)%Z -> fixed z <= 1 + x / 2 ^ k ->
  fixed (sq_down k z) <= exp x.
Proof.
  intros Hz Hx. pose proof scale_pos as HS.
  rewrite (exp_pow_2 k).
  apply Rle_trans with (fixed z ^ (2 ^ k)); [now apply sq_down_le|].
  apply pow_incr. split.
  - unfold fixed. apply Rmult_le_pos; [now apply IZR_le|].
    left. now apply Rinv_0_lt_compat.
  - apply Rle_trans with (1 + x / 2 ^ k); [assumption|apply exp_ineq1_le].
Qed.

(** [exp x <= (1 / (1 - x / n)) ^ n] at [n = 2 ^ k], computed from above. *)
Lemma exp_le_fixed (k : nat) (z : Z) (x : R) :
  (0 <= z)%Z -> x / 2 ^ k < 1 -> 1 <= fixed z * (1 - x / 2 ^ k) ->
  exp x <= fixed (sq_up k z).
Proof.
  intros Hz Hx1 Hx. pose proof scale_pos as HS.
  rewrite (exp_pow_2 k). set (y := x / 2 ^ k) in *.
  apply Rle_trans with (fixed z ^ (2 ^ k)); [|now apply sq_up_ge].
  apply pow_incr. split; [left; apply exp_pos|].
  pose proof (exp_ineq1_le (- y)) as H1. rewrite exp_Ropp in H1.
  pose proof (exp_pos y) as H2.
  assert (H3 : exp y * (1 - y) <= 1).
  { apply Rmult_le_reg_r with (/ exp y); [now apply Rinv_0_lt_compat|].
    rewrite Rmult_1_l.
    replace (exp y * (1 - y) * / exp y) with (1 - y) by (field; lra). lra. }
  apply Rmult_le_reg_r with (1 - y); lra.
Qed.

Lemma lt_ln_of_exp_lt (a x : R) : exp x < a -> x < ln a.
Proof.
  intros H. assert (Ha : 0 < a) by (pose proof (exp_pos x); lra).
  rewrite <- (ln_exp x). apply ln_increasing; [apply exp_pos|assumption].
Qed.

Lemma ln_lt_of_lt_exp (a x : R) : 0 < a -> a < exp x -> ln a < x.
Proof.
  intros Ha H. rewrite <- (ln_exp x). now apply ln_increasing.
Qed.

Lemma ln_le_of_le_exp (a x : R) : 0 < a -> a <= exp x -> ln a <= x.
Proof.
  intros Ha [H|H].
  - left. now apply ln_lt_of_lt_exp.
  - rewrite H, ln_exp. lra.
Qed.

Lemma ln_nonneg (a : R) : 1 <= a -> 0 <= ln a.
Proof.
  intros [H|H].
  - left. rewrite <- ln_1. apply ln_increasing; lra.
  - rewrite <- H, ln_1. lra.
Qed.

Lemma exp_1_gt_2 : 2 < exp 1.
Proof. pose proof (exp_ineq1 1). lra. Qed.

(** [ln a <= n] as soon as [a <= 2 ^ n]. *)
Lemma ln_le_of_le_pow2 (n : nat) (a : R) : 0 < a -> a <= 2 ^ n -> ln a <= INR n.
Proof.
  intros Ha H. apply Rnot_lt_le. intros Hn.
  assert (H1 : exp (INR n) < exp (ln a)) by now apply exp_increasing.
  rewrite exp_ln in H1 by assumption.
  replace (INR n) with (INR n * 1) in H1 by ring.
  rewrite exp_mult_INR in H1.
  assert (H2 : 2 ^ n <= exp 1 ^ n).
  { apply pow_incr. pose proof exp_1_gt_2. lra. }
  lra.
Qed.

(** Below 640 the exponential stays in the binary64 range; from 1024 on
    it is out of it. *)
Lemma exp_below_overflow (x : R) : x <= 640 -> exp x < PyMath.overflow_bound.
Proof.
  intros H. apply Rle_lt_trans with (exp 640).
  { destruct H as [H|H]; [left; now apply exp_increasing|rewrite H; lra]. }
  replace 640 with (INR 640 * 1).
  2:{ rewrite INR_IZR_INZ. cbn. lra. }
  rewrite exp_mult_INR.
  apply Rle_lt_trans with (3 ^ 640).
  { apply pow_incr. split; [left; apply exp_pos|apply exp_le_3]. }
  rewrite pow_IZR. apply IZR_lt. vm_compute. reflexivity.
Qed.


(** ** Monotonicity of the percentage in the linear predictor *)

Lemma risk_percent_increasing c L1 L2 :
  0 < S10 c < 1 -> L1 < L2 -> risk_percent c L1 < risk_percent c L2.
Proof.
  intros [H0 H1] HL. unfold risk_percent, Rpower.
  assert (Hl : ln (S10 c) < 0).
  { rewrite <- ln_1. now apply ln_increasing. }
  assert (He : exp (L1 - MeanTerms c) < exp (L2 - MeanTerms c)).
  { apply exp_increasing. lra. }
  assert (Hp : exp (exp (L2 - MeanTerms c) * ln (S10 c)) <
               exp (exp (L1 - MeanTerms c) * ln (S10 c))).
  { apply exp_increasing. nra. }
  lra.
Qed.

Lemma risk_percent_monotone c L1 L2 :
  0 < S10 c < 1 -> L1 <= L2 -> risk_percent c L1 <= risk_percent c L2.
Proof.
  intros HS [H|H].
  - left. now apply risk_percent_increasing.
  - rewrite H. lra.
Qed.

(** ** Normalisation of the two strings *)














(** The engine reads its two strings only through [normalize]. *)
Lemma lookup_normalize sex1 race1 sex2 race2 :
  normalize sex1 = normalize sex2 -> normalize race1 = normalize race2 ->
  lookup sex1 race1 = lookup sex2 race2.
Proof.
  intros Hs Hr. unfold lookup, resolve_race. now rewrite Hs, Hr.
Qed.

(** ** Inputs for which the exponential cannot overflow *)

Lemma ln_between (n : nat) (a : R) :
  1 <= a <= 2 ^ n -> 0 <= ln a <= INR n.
Proof.
  intros [H1 H2]. split.
  - now apply ln_nonneg.
  - apply ln_le_of_le_pow2; [lra|assumption].
Qed.

Lemma linear_predictor_box s r age tc hdl sbp on_treatment smoker diabetes :
  in_box age tc hdl sbp ->
  linear_predictor (coefficient_set s r) age tc hdl sbp
    on_treatment smoker diabetes
  - MeanTerms (coefficient_set s r) <= 640.
Proof.
  intros (Ha & Ht & Hh & Hs).
  assert (Ha' : 0 <= ln age <= INR 8) by (apply ln_between; simpl; lra).
  assert (Ht' : 0 <= ln tc <= INR 9) by (apply ln_between; simpl; lra).
  assert (Hh' : 0 <= ln hdl <= INR 8) by (apply ln_between; simpl; lra).
  assert (Hs' : 0 <= ln sbp <= INR 8) by (apply ln_between; simpl; lra).
  clear Ha Ht Hh Hs. rewrite !INR_IZR_INZ in *. cbn [Z.of_nat Pos.of_succ_nat Pos.succ] in *.
  unfold linear_predictor.
  set (la := ln age) in *. set (lt := ln tc) in *.
  set (lh := ln hdl) in *. set (ls := ln sbp) in *.
  assert (Haa : 0 <= la * la <= 8 * la) by nra.
  assert (Hat : 0 <= la * lt <= 72) by nra.
  assert (Hah : 0 <= la * lh <= 64) by nra.
  assert (Has : 0 <= la * ls <= 64) by nra.
  destruct s, r, on_treatment, smoker, diabetes; cbn;
    rewrite ?Rmult_assoc; lra.
Qed.

Lemma no_overflow_in_box s r age tc hdl sbp on_treatment smoker diabetes :
  in_box age tc hdl sbp ->
  exp (linear_predictor (coefficient_set s r) age tc hdl sbp
         on_treatment smoker diabetes
       - MeanTerms (coefficient_set s r)) < PyMath.overflow_bound.
Proof.
  intros H. apply exp_below_overflow. now apply linear_predictor_box.
Qed.

(** ** The outcomes of the engine *)

Section Engine.

Variables (age : R) (sex race : string) (tc hdl sbp : R).
Variables on_treatment smoker diabetes : bool.

Let out :=
  ascvd_10y_risk_pce age sex race tc hdl sbp on_treatment smoker diabetes.

Lemma engine_bad_race : ~ recognized_race race -> out = raise race_error.
Proof.
  intros H. unfold out. rewrite ascvd_stages.
  now rewrite (lookup_bad_race _ _ H).
Qed.

Lemma engine_bad_sex :
  recognized_race race -> ~ recognized_sex sex -> out = raise sex_error.
Proof.
  intros Hr Hs. unfold out. rewrite ascvd_stages.
  now rewrite (lookup_bad_sex _ _ Hr Hs).
Qed.

Section Recognized.

Variables (s : Sex) (r : Race).
Hypothesis sex_ok : normalize sex = sex_name s.
Hypothesis race_ok : normalize race = race_name r.

Let c := coefficient_set s r.
Let L := linear_predictor c age tc hdl sbp on_treatment smoker diabetes.

Lemma engine_numeric_stage :
  out = risk_of c age tc hdl sbp on_treatment smoker diabetes.
Proof.
  unfold out. rewrite ascvd_stages.
  now rewrite (lookup_recognized _ _ _ _ sex_ok race_ok).
Qed.

Lemma engine_domain_error :
  age <= 0 \/ tc <= 0 \/ hdl <= 0 \/ sbp <= 0 -> out = raise domain_error.
Proof.
  intros H. rewrite engine_numeric_stage. now apply risk_of_domain_error.
Qed.

Lemma engine_value :
  0 < age -> 0 < tc -> 0 < hdl -> 0 < sbp ->
  exp (L - MeanTerms c) < PyMath.overflow_bound ->
  out = ret (risk_percent c L).
Proof.
  intros. rewrite engine_numeric_stage. now apply risk_of_value.
Qed.

Lemma engine_range_error :
  0 < age -> 0 < tc -> 0 < hdl -> 0 < sbp ->
  PyMath.overflow_bound <= exp (L - MeanTerms c) ->
  out = raise range_error.
Proof.
  intros. rewrite engine_numeric_stage. now apply risk_of_range_error.
Qed.

End Recognized.

Lemma engine_outcome :
  outcome age sex race tc hdl sbp on_treatment smoker diabetes out.
Proof.
  destruct (recognized_race_dec race) as [Hr|Hr].
  2:{ apply bad_race; [assumption|now apply engine_bad_race]. }
  destruct (recognized_sex_dec sex) as [Hs|Hs].
  2:{ apply bad_sex; try assumption. now apply engine_bad_sex. }
  destruct Hr as [r Hr], Hs as [s Hs].
  destruct (Rlt_dec 0 age) as [Ha|Ha].
  2:{ apply out_of_domain with (s := s) (r := r); try assumption; [lra|].
      apply (engine_domain_error s r); try assumption. lra. }
  destruct (Rlt_dec 0 tc) as [Ht|Ht].
  2:{ apply out_of_domain with (s := s) (r := r); try assumption; [lra|].
      apply (engine_domain_error s r); try assumption. lra. }
  destruct (Rlt_dec 0 hdl) as [Hh|Hh].
  2:{ apply out_of_domain with (s := s) (r := r); try assumption; [lra|].
      apply (engine_domain_error s r); try assumption. lra. }
  destruct (Rlt_dec 0 sbp) as [Hp|Hp].
  2:{ apply out_of_domain with (s := s) (r := r); try assumption; [lra|].
      apply (engine_domain_error s r); try assumption. lra. }
  destruct (Rle_dec PyMath.overflow_bound
              (exp (linear_predictor (coefficient_set s r) age tc hdl sbp
                      on_treatment smoker diabetes
                    - MeanTerms (coefficient_set s r)))) as [Ho|Ho].
  - apply out_of_range with (s := s) (r := r); try assumption.
    now apply (engine_range_error s r).
  - apply value with (s := s) (r := r); try assumption; [lra|].
    apply (engine_value s r); try assumption. lra.
Qed.

End Engine.

(** ** Logarithms of the extreme inputs *)




(** ** C1: the value returned by the engine *)




(** ** C2: the percentage is within 0 and 100 *)

(** C2.  Whenever the engine returns a risk, it lies in the closed
    interval from 0 to 100, whatever the inputs were; the clamp of the
    page then leaves it unchanged. *)
Theorem engine_risk_within_0_100 (age : R) (sex race : string)
    (tc hdl sbp : R) (on_treatment smoker diabetes : bool) (risk : R) :
  ascvd_10y_risk_pce age sex race tc hdl sbp on_treatment smoker diabetes
    = ret risk ->
  0 <= risk <= 100 /\ Page.clip risk = risk.
Proof.
  intros H.
  assert (Hr : 0 < risk < 100).
  { destruct (engine_outcome age sex race tc hdl sbp
                on_treatment smoker diabetes)
      as [_ E|_ _ E|s r _ _ _ E|s r _ _ _ _ _ _ _ E|s r _ _ _ _ _ _ _ E];
      rewrite E in H; try discriminate H.
    injection H as <-. apply risk_percent_range, S10_range. }
  split; [lra|].
  unfold Page.clip, Page.min, Page.max, Page.lt.
  destruct (Rlt_dec 100.0 risk); [lra|].
  destruct (Rlt_dec 0.0 risk); [reflexivity|lra].
Qed.

(** The instance of the specification: an age of 200. *)
Lemma engine_risk_within_0_100_witness :
  let risk := risk_percent male_white
                (linear_predictor male_white 200 213 50 120
                   false false false) in
  0 <= risk <= 100 /\ Page.clip risk = risk.
Proof.
  apply (engine_risk_within_0_100 200 "male" "white" 213 50 120
           false false false).
  apply (engine_value _ _ _ _ _ _ _ _ _ Male White);
    [reflexivity|reflexivity|lra|lra|lra|lra|].
  apply (no_overflow_in_box Male White). unfold in_box. lra.
Defined.

(** ** C3: the failure modes for recognized, positive inputs *)




(** ** C4: non-positive inputs of a logarithm *)

(** C4.  For every input in which the age, the total cholesterol, the HDL
    cholesterol or the pressure is at most zero, the engine raises
    [ValueError] and returns no number. *)
Theorem engine_rejects_nonpositive (age : R) (sex race : string)
    (tc hdl sbp : R) (on_treatment smoker diabetes : bool) :
  age <= 0 \/ tc <= 0 \/ hdl <= 0 \/ sbp <= 0 ->
  let out :=
    ascvd_10y_risk_pce age sex race tc hdl sbp on_treatment smoker diabetes in
  (exists msg, out = raise (ValueError msg)) /\
  (forall risk, out <> ret risk).
Proof.
  intros H out.
  assert (E : exists msg, out = raise (ValueError msg)).
  { destruct (engine_outcome age sex race tc hdl sbp
                on_treatment smoker diabetes)
      as [_ E|_ _ E|s r _ _ _ E|s r _ _ Ha Ht Hh Hp _ _|s r _ _ Ha Ht Hh Hp _ _];
      try (eexists; exact E); lra. }
  split; [exact E|]. destruct E as [msg E]. rewrite E. discriminate.
Qed.

Lemma engine_rejects_nonpositive_witness :
  (exists msg,
     ascvd_10y_risk_pce 0 "male" "white" (-5) 50 120 false false false
     = raise (ValueError msg)) /\
  (forall risk,
     ascvd_10y_risk_pce 0 "male" "white" (-5) 50 120 false false false
     <> ret risk).
Proof.
  apply (engine_rejects_nonpositive 0 "male" "white" (-5) 50 120
           false false false).
  left. lra.
Defined.

(** ** C5: the errors of the lookup and the four buckets *)



(** ** C6: the category of a percentage *)

Lemma category_label_injective k1 k2 :
  category_label k1 = category_label k2 -> k1 = k2.
Proof. destruct k1, k2; intros H; try reflexivity; discriminate H. Qed.

(** C6.  The category shown for a percentage [r] is a function of [r]
    alone and always one of the four: low exactly when [r < 5], borderline
    exactly when [5 <= r < 7.5], intermediate exactly when
    [7.5 <= r < 20] and high exactly when [20 <= r]. *)
Theorem category_boundaries (r : R) :
  (exists k, fst (Page.categorize r) = category_label k) /\
  (fst (Page.categorize r) = category_label Low <-> r < 5) /\
  (fst (Page.categorize r) = category_label Borderline <-> 5 <= r < 7.5) /\
  (fst (Page.categorize r) = category_label Intermediate <->
   7.5 <= r < 20) /\
  (fst (Page.categorize r) = category_label High <-> 20 <= r).
Proof.
  unfold Page.categorize, Page.lt.
  destruct (Rlt_dec r 5) as [H1|H1];
    [|destruct (Rlt_dec r 7.5) as [H2|H2];
      [|destruct (Rlt_dec r 20) as [H3|H3]]];
    cbn [fst];
    (split;
     [ first [now exists Low | now exists Borderline
             | now exists Intermediate | now exists High]
     | split; [|split; [|split]]; (split; intros E);
       first [discriminate E | reflexivity | lra] ]).
Qed.

(** ** C7: the effect of HDL cholesterol *)

(** What a returned value tells about the inputs of the numeric stage. *)
Lemma risk_of_inv c age tc hdl sbp on_treatment smoker diabetes risk :
  risk_of c age tc hdl sbp on_treatment smoker diabetes = ret risk ->
  0 < age /\ 0 < tc /\ 0 < hdl /\ 0 < sbp /\
  exp (linear_predictor c age tc hdl sbp on_treatment smoker diabetes
       - MeanTerms c) < PyMath.overflow_bound /\
  risk = risk_percent c
           (linear_predictor c age tc hdl sbp on_treatment smoker diabetes).
Proof.
  intros H.
  destruct (Rlt_dec 0 age) as [Ha|Ha];
    [|rewrite risk_of_domain_error in H by lra; discriminate H].
  destruct (Rlt_dec 0 tc) as [Ht|Ht];
    [|rewrite risk_of_domain_error in H by lra; discriminate H].
  destruct (Rlt_dec 0 hdl) as [Hh|Hh];
    [|rewrite risk_of_domain_error in H by lra; discriminate H].
  destruct (Rlt_dec 0 sbp) as [Hp|Hp];
    [|rewrite risk_of_domain_error in H by lra; discriminate H].
  destruct (Rlt_le_dec
              (exp (linear_predictor c age tc hdl sbp
                      on_treatment smoker diabetes - MeanTerms c))
              PyMath.overflow_bound) as [Ho|Ho].
  - rewrite risk_of_value in H by assumption. injection H as <-.
    repeat split; assumption.
  - rewrite risk_of_range_error in H by assumption. discriminate H.
Qed.

(** The linear predictor is affine in [ln hdl]. *)
Lemma linear_predictor_hdl c age tc hdl1 hdl2 sbp on_treatment smoker diabetes :
  linear_predictor c age tc hdl2 sbp on_treatment smoker diabetes
  - linear_predictor c age tc hdl1 sbp on_treatment smoker diabetes
  = hdl_slope c age * (ln hdl2 - ln hdl1).
Proof. unfold linear_predictor, hdl_slope. ring. Qed.

(** The logarithms of the ages around which the slope changes sign. *)
Ltac eval_fixed H :=
  match type of H with
  | context [fixed ?t] =>
      let v := eval vm_compute in t in change (fixed t) with (fixed v) in H
  end;
  unfold fixed, scale in H.

Ltac ln_upper z x :=
  apply ln_le_of_le_exp; [lra|];
  let H := fresh "H" in
  assert (H : fixed (sq_down 12 z) <= exp x);
  [ apply exp_ge_fixed; [vm_compute; discriminate|];
    unfold fixed, scale; simpl pow; lra
  | eval_fixed H; lra ].

Ltac ln_lower z x :=
  left; apply lt_ln_of_exp_lt;
  let H := fresh "H" in
  assert (H : exp x <= fixed (sq_up 12 z));
  [ apply exp_le_fixed; [vm_compute; discriminate| |];
    unfold fixed, scale; simpl pow; lra
  | eval_fixed H; lra ].

Lemma ln_74 : ln 74 <= 4.3118.
Proof. ln_upper 1100669067775%Z 4.3118. Qed.

Lemma ln_75 : 4.3119 <= ln 75.
Proof. ln_lower 1100670314380%Z 4.3119. Qed.

Lemma ln_68 : ln 68 <= 4.2279.
Proof. ln_upper 1100646546040%Z 4.2279. Qed.

Lemma ln_69 : 4.2280 <= ln 69.
Proof. ln_lower 1100647745615%Z 4.2280. Qed.

Lemma ln_91 : ln 91 <= 4.5166.
Proof. ln_upper 1100724043356%Z 4.5166. Qed.

Lemma ln_92 : 4.5167 <= ln 92.
Proof. ln_lower 1100725408649%Z 4.5167. Qed.

Lemma ln_monotone (a b : R) : 0 < a -> a <= b -> ln a <= ln b.
Proof.
  intros Ha [H|H]; [left; now apply ln_increasing|rewrite H; lra].
Qed.

(** The sign of the slope, bucket by bucket: HDL lowers the linear
    predictor at every age for black men, up to 91 for white men, up to
    74 for white women and up to 68 for black women, and raises it from
    the next year on. *)
Lemma hdl_slope_by_age (s : Sex) (r : Race) (age : R) :
  0 < age ->
  match s, resolved r with
  | Male, Black => hdl_slope (coefficient_set s r) age < 0
  | Male, _ =>
      (age <= 91 -> hdl_slope (coefficient_set s r) age <= 0) /\
      (92 <= age -> 0 < hdl_slope (coefficient_set s r) age)
  | Female, Black =>
      (age <= 68 -> hdl_slope (coefficient_set s r) age <= 0) /\
      (69 <= age -> 0 < hdl_slope (coefficient_set s r) age)
  | Female, _ =>
      (age <= 74 -> hdl_slope (coefficient_set s r) age <= 0) /\
      (75 <= age -> 0 < hdl_slope (coefficient_set s r) age)
  end.
Proof.
  intros Ha. unfold hdl_slope.
  destruct s, r; coefficients_values; try lra; split; intros H.
  - pose proof (ln_monotone age 91 Ha H). pose proof ln_91. lra.
  - pose proof (ln_monotone 92 age ltac:(lra) H). pose proof ln_92. lra.
  - pose proof (ln_monotone age 91 Ha H). pose proof ln_91. lra.
  - pose proof (ln_monotone 92 age ltac:(lra) H). pose proof ln_92. lra.
  - pose proof (ln_monotone age 74 Ha H). pose proof ln_74. lra.
  - pose proof (ln_monotone 75 age ltac:(lra) H). pose proof ln_75. lra.
  - pose proof (ln_monotone age 68 Ha H). pose proof ln_68. lra.
  - pose proof (ln_monotone 69 age ltac:(lra) H). pose proof ln_69. lra.
  - pose proof (ln_monotone age 74 Ha H). pose proof ln_74. lra.
  - pose proof (ln_monotone 75 age ltac:(lra) H). pose proof ln_75. lra.
Qed.

Lemma hdl_protective_slope (s : Sex) (r : Race) (age : R) :
  0 < age -> hdl_protective_age s r age ->
  hdl_slope (coefficient_set s r) age <= 0.
Proof.
  intros Ha H. pose proof (hdl_slope_by_age s r age Ha) as B.
  unfold hdl_protective_age in H.
  destruct s, r; cbn [resolved] in H, B; try lra; now apply B.
Qed.

(** C7 (as amended).  For a valid input and two HDL values
    [0 < hdl1 < hdl2], all else fixed.  Where the slope
    [CHDLChol + CAgeHDLChol * ln age] of the selected set is not positive,
    the value of the formula at [hdl2] is not larger than at [hdl1].  For
    the returned numbers: at the protective ages of the bucket (any age
    for black men, up to 91 for white men, 74 for white women, 68 for
    black women) and for two HDL values of the form, 10 to 150, at least
    one step apart, whenever the engine returns a risk at [hdl1] it
    returns at [hdl2] a risk that is not larger. *)
Theorem hdl_never_increases_risk (s : Sex) (r : Race)
    (age : R) (sex race : string) (tc hdl1 hdl2 sbp : R)
    (on_treatment smoker diabetes : bool) :
  normalize sex = sex_name s -> normalize race = race_name r ->
  0 < age -> 0 < tc -> 0 < sbp -> 0 < hdl1 < hdl2 ->
  let c := coefficient_set s r in
  let L1 := linear_predictor c age tc hdl1 sbp on_treatment smoker diabetes in
  let L2 := linear_predictor c age tc hdl2 sbp on_treatment smoker diabetes in
  (hdl_slope c age <= 0 -> risk_percent c L2 <= risk_percent c L1) /\
  (hdl_protective_age s r age ->
   Form.accepts Form.hdl_input hdl1 -> Form.accepts Form.hdl_input hdl2 ->
   hdl1 + 1 <= hdl2 ->
   forall risk1 : R,
     ascvd_10y_risk_pce age sex race tc hdl1 sbp
       on_treatment smoker diabetes = ret risk1 ->
     exists risk2 : R,
       ascvd_10y_risk_pce age sex race tc hdl2 sbp
         on_treatment smoker diabetes = ret risk2 /\
       risk2 <= risk1).
Proof.
  intros Hs Hr Ha Ht Hp [H1 H12] c L1 L2.
  assert (HL : hdl_slope c age <= 0 -> L2 <= L1).
  { intros Hslope.
    assert (Hln : ln hdl1 < ln hdl2) by now apply ln_increasing.
    pose proof (linear_predictor_hdl c age tc hdl1 hdl2 sbp
                  on_treatment smoker diabetes) as D.
    fold L1 L2 in D. nra. }
  split.
  - intros Hslope. apply risk_percent_monotone; [apply S10_range|auto].
  - intros Hage _ _ _ risk1 E1.
    pose proof (HL (hdl_protective_slope s r age Ha Hage)) as HL'.
    rewrite (engine_numeric_stage _ _ _ _ _ _ _ _ _ s r Hs Hr) in E1.
    apply risk_of_inv in E1 as (_ & _ & _ & _ & Ho & ->).
    fold c L1 in Ho |- *.
    assert (Ho2 : exp (L2 - MeanTerms c) < PyMath.overflow_bound).
    { apply Rle_lt_trans with (exp (L1 - MeanTerms c)); [|assumption].
      destruct HL' as [HL'|HL']; [left; apply exp_increasing; lra|].
      rewrite HL'. lra. }
    exists (risk_percent c L2). split.
    + apply (engine_value _ _ _ _ _ _ _ _ _ s r); try assumption. lra.
    + apply risk_percent_monotone; [apply S10_range|assumption].
Qed.

Lemma hdl_never_increases_risk_witness :
  exists risk2 : R,
    ascvd_10y_risk_pce 55 "female" "white" 213 51 120 false false false
      = ret risk2 /\
    risk2 <= risk_percent female_white
               (linear_predictor female_white 55 213 50 120
                  false false false).
Proof.
  apply (proj2 (hdl_never_increases_risk Female White 55 "female" "white"
                  213 50 51 120 false false false
                  eq_refl eq_refl ltac:(lra) ltac:(lra) ltac:(lra)
                  ltac:(lra))).
  - cbn. lra.
  - unfold Form.accepts. cbn. lra.
  - unfold Form.accepts. cbn. lra.
  - lra.
  - apply (engine_value _ _ _ _ _ _ _ _ _ Female White);
      [reflexivity|reflexivity|lra|lra|lra|lra|].
    apply (no_overflow_in_box Female White). unfold in_box. lra.
Defined.

(** Where the slope is positive, more HDL means strictly more risk. *)
Lemma hdl_raises_risk (s : Sex) (r : Race)
    (age : R) (sex race : string) (tc hdl1 hdl2 sbp : R)
    (on_treatment smoker diabetes : bool) (risk2 : R) :
  normalize sex = sex_name s -> normalize race = race_name r ->
  0 < hdl1 < hdl2 ->
  0 < hdl_slope (coefficient_set s r) age ->
  ascvd_10y_risk_pce age sex race tc hdl2 sbp on_treatment smoker diabetes
    = ret risk2 ->
  exists risk1,
    ascvd_10y_risk_pce age sex race tc hdl1 sbp on_treatment smoker diabetes
      = ret risk1 /\
    risk1 < risk2.
Proof.
  intros Hs Hr [H1 H12] Hslope E2.
  rewrite (engine_numeric_stage _ _ _ _ _ _ _ _ _ s r Hs Hr) in E2.
  apply risk_of_inv in E2 as (Ha & Ht & _ & Hp & Ho & ->).
  set (c := coefficient_set s r) in *.
  set (L2 := linear_predictor c age tc hdl2 sbp on_treatment smoker diabetes)
    in *.
  set (L1 := linear_predictor c age tc hdl1 sbp on_treatment smoker diabetes).
  assert (HL : L1 < L2).
  { assert (Hln : ln hdl1 < ln hdl2) by now apply ln_increasing.
    pose proof (linear_predictor_hdl c age tc hdl1 hdl2 sbp
                  on_treatment smoker diabetes) as D.
    fold L1 L2 in D. nra. }
  assert (Ho1 : exp (L1 - MeanTerms c) < PyMath.overflow_bound).
  { apply Rlt_trans with (exp (L2 - MeanTerms c)); [|assumption].
    apply exp_increasing. lra. }
  exists (risk_percent c L1). split.
  - now apply (engine_value _ _ _ _ _ _ _ _ _ s r).
  - apply risk_percent_increasing; [apply S10_range|assumption].
Qed.

(** C7 as stated fails: for a white woman of 79 the slope is positive,
    and raising HDL from 40 to 60 raises the risk. *)
Lemma hdl_raises_risk_at_79 :
  exists risk1 risk2,
    ascvd_10y_risk_pce 79 "female" "white" 213 40 120 false false false
      = ret risk1 /\
    ascvd_10y_risk_pce 79 "female" "white" 213 60 120 false false false
      = ret risk2 /\
    risk1 < risk2.
Proof.
  set (c := coefficient_set Female White).
  assert (E2 : ascvd_10y_risk_pce 79 "female" "white" 213 60 120
                 false false false
               = ret (risk_percent c
                        (linear_predictor c 79 213 60 120
                           false false false))).
  { apply (engine_value _ _ _ _ _ _ _ _ _ Female White);
      [reflexivity|reflexivity|lra|lra|lra|lra|].
    apply (no_overflow_in_box Female White). unfold in_box. lra. }
  destruct (hdl_raises_risk Female White 79 "female" "white" 213 40 60 120
              false false false _ eq_refl eq_refl ltac:(lra)
              (proj2 (hdl_slope_by_age Female White 79 ltac:(lra))
                 ltac:(lra)) E2)
    as (risk1 & E1 & Hlt).
  now exists risk1, (risk_percent c
                       (linear_predictor c 79 213 60 120 false false false)).
Qed.

(** ** C8: the alias of "white" *)

(** C8.  Two inputs that differ only in that one has the race "other"
    and the other the race "white" have the same outcome. *)
Theorem race_other_is_white (age : R) (sex : string) (tc hdl sbp : R)
    (on_treatment smoker diabetes : bool) :
  ascvd_10y_risk_pce age sex "other" tc hdl sbp on_treatment smoker diabetes
  = ascvd_10y_risk_pce age sex "white" tc hdl sbp
      on_treatment smoker diabetes.
Proof. reflexivity. Qed.

(** ** C9: ages outside 40-79 *)








(** ** C10: case and surrounding whitespace of the two strings *)



(** * Further properties of the engine and of the page *)

(** ** Comparing two calls through their linear predictors *)

Lemma engine_order (s : Sex) (r : Race) (sex race : string)
    (age1 tc1 hdl1 sbp1 : R) (on1 sm1 db1 : bool)
    (age2 tc2 hdl2 sbp2 : R) (on2 sm2 db2 : bool) (risk2 : R) :
  normalize sex = sex_name s -> normalize race = race_name r ->
  0 < age1 -> 0 < tc1 -> 0 < hdl1 -> 0 < sbp1 ->
  linear_predictor (coefficient_set s r) age1 tc1 hdl1 sbp1 on1 sm1 db1
  <= linear_predictor (coefficient_set s r) age2 tc2 hdl2 sbp2 on2 sm2 db2 ->
  ascvd_10y_risk_pce age2 sex race tc2 hdl2 sbp2 on2 sm2 db2 = ret risk2 ->
  exists risk1,
    ascvd_10y_risk_pce age1 sex race tc1 hdl1 sbp1 on1 sm1 db1 = ret risk1 /\
    risk1 <= risk2 /\
    (linear_predictor (coefficient_set s r) age1 tc1 hdl1 sbp1 on1 sm1 db1
     < linear_predictor (coefficient_set s r) age2 tc2 hdl2 sbp2 on2 sm2 db2 ->
     risk1 < risk2).
Proof.
  intros Hs Hr Ha Ht Hh Hp HL E2.
  rewrite (engine_numeric_stage _ _ _ _ _ _ _ _ _ s r Hs Hr) in E2.
  apply risk_of_inv in E2 as (_ & _ & _ & _ & Ho & ->).
  set (c := coefficient_set s r) in *.
  set (L1 := linear_predictor c age1 tc1 hdl1 sbp1 on1 sm1 db1) in *.
  set (L2 := linear_predictor c age2 tc2 hdl2 sbp2 on2 sm2 db2) in *.
  assert (Ho1 : exp (L1 - MeanTerms c) < PyMath.overflow_bound).
  { apply Rle_lt_trans with (exp (L2 - MeanTerms c)); [|assumption].
    destruct HL as [HL|HL]; [left; apply exp_increasing; lra|].
    rewrite HL. lra. }
  exists (risk_percent c L1). split; [|split].
  - now apply (engine_value _ _ _ _ _ _ _ _ _ s r).
  - apply risk_percent_monotone; [apply S10_range|assumption].
  - apply risk_percent_increasing, S10_range.
Qed.

(** What a returned value tells about the inputs of the engine. *)
Lemma engine_returns_inv (s : Sex) (r : Race)
    (age : R) (sex race : string) (tc hdl sbp : R)
    (on_treatment smoker diabetes : bool) (risk : R) :
  normalize sex = sex_name s -> normalize race = race_name r ->
  ascvd_10y_risk_pce age sex race tc hdl sbp on_treatment smoker diabetes
    = ret risk ->
  0 < age /\ 0 < tc /\ 0 < hdl /\ 0 < sbp.
Proof.
  intros Hs Hr E.
  rewrite (engine_numeric_stage _ _ _ _ _ _ _ _ _ s r Hs Hr) in E.
  apply risk_of_inv in E. tauto.
Qed.

(** Logarithms of further ages, by [k] squarings. *)
Ltac ln_upper_by k z x :=
  apply ln_le_of_le_exp; [lra|];
  let H := fresh "H" in
  assert (H : fixed (sq_down k z) <= exp x);
  [ apply exp_ge_fixed; [vm_compute; discriminate|];
    unfold fixed, scale; simpl pow; lra
  | eval_fixed H; lra ].

Ltac ln_lower_by k z x :=
  left; apply lt_ln_of_exp_lt;
  let H := fresh "H" in
  assert (H : exp x <= fixed (sq_up k z));
  [ apply exp_le_fixed; [vm_compute; discriminate| |];
    unfold fixed, scale; simpl pow; lra
  | eval_fixed H; lra ].

Lemma ln_78_upper : ln 78 <= 4.366.
Proof. ln_upper_by 14%nat 1099804625076%Z 4.366. Qed.

Lemma ln_79_lower : 4.3661 <= ln 79.
Proof. ln_lower_by 14%nat 1099804709890%Z 4.3661. Qed.

Lemma ln_77_upper : ln 77 <= 4.348.
Proof. ln_upper_by 14%nat 1099803417116%Z 4.348. Qed.

Lemma ln_78_lower : 4.3482 <= ln 78.
Proof. ln_lower_by 14%nat 1099803508002%Z 4.3482. Qed.

Lemma ln_94_upper : ln 94 <= 4.55.
Proof. ln_upper_by 14%nat 1099816973107%Z 4.55. Qed.

Lemma ln_71_upper : ln 71 <= 4.2637.
Proof. ln_upper_by 16%nat 1099583160791%Z 4.2637. Qed.

(** ** The risk factors, one at a time *)

Lemma linear_predictor_diabetes c age tc hdl sbp on_treatment smoker :
  linear_predictor c age tc hdl sbp on_treatment smoker true
  - linear_predictor c age tc hdl sbp on_treatment smoker false
  = CDiabetes c.
Proof. unfold linear_predictor. ring. Qed.

Lemma linear_predictor_smoker c age tc hdl sbp on_treatment diabetes :
  linear_predictor c age tc hdl sbp on_treatment true diabetes
  - linear_predictor c age tc hdl sbp on_treatment false diabetes
  = CSmoker c + CAgeSmoker c * ln age.
Proof. unfold linear_predictor. ring. Qed.

Lemma linear_predictor_tc c age tc1 tc2 hdl sbp on_treatment smoker diabetes :
  linear_predictor c age tc2 hdl sbp on_treatment smoker diabetes
  - linear_predictor c age tc1 hdl sbp on_treatment smoker diabetes
  = (CTotalChol c + CAgeTotalChol c * ln age) * (ln tc2 - ln tc1).
Proof. unfold linear_predictor. ring. Qed.

Lemma linear_predictor_sbp c age tc hdl sbp1 sbp2 on_treatment smoker diabetes :
  linear_predictor c age tc hdl sbp2 on_treatment smoker diabetes
  - linear_predictor c age tc hdl sbp1 on_treatment smoker diabetes
  = (if on_treatment
     then COnHypertensionMeds c + CAgeOnHypertensionMeds c * ln age
     else COffHypertensionMeds c + CAgeOffHypertensionMeds c * ln age)
    * (ln sbp2 - ln sbp1).
Proof. unfold linear_predictor. destruct on_treatment; ring. Qed.

Lemma linear_predictor_treatment c age tc hdl sbp smoker diabetes :
  linear_predictor c age tc hdl sbp true smoker diabetes
  - linear_predictor c age tc hdl sbp false smoker diabetes
  = (COnHypertensionMeds c - COffHypertensionMeds c
     + (CAgeOnHypertensionMeds c - CAgeOffHypertensionMeds c) * ln age)
    * ln sbp.
Proof. unfold linear_predictor. ring. Qed.

(** X1.  Diabetes never pays: whenever the engine returns a risk for a
    diabetic, it returns one that is not larger for the same input
    without diabetes, in each of the four buckets. *)
Theorem diabetes_never_lowers_risk (s : Sex) (r : Race)
    (age : R) (sex race : string) (tc hdl sbp : R)
    (on_treatment smoker : bool) (risk1 : R) :
  normalize sex = sex_name s -> normalize race = race_name r ->
  ascvd_10y_risk_pce age sex race tc hdl sbp on_treatment smoker true
    = ret risk1 ->
  exists risk0,
    ascvd_10y_risk_pce age sex race tc hdl sbp on_treatment smoker false
      = ret risk0 /\
    risk0 <= risk1.
Proof.
  intros Hs Hr E.
  destruct (engine_returns_inv s r _ _ _ _ _ _ _ _ _ _ Hs Hr E)
    as (Ha & Ht & Hh & Hp).
  pose proof (linear_predictor_diabetes (coefficient_set s r) age tc hdl sbp
                on_treatment smoker) as D.
  assert (Hc : 0 < CDiabetes (coefficient_set s r))
    by (destruct s, r; coefficients_values; lra).
  destruct (engine_order s r sex race
              age tc hdl sbp on_treatment smoker false
              age tc hdl sbp on_treatment smoker true risk1
              Hs Hr Ha Ht Hh Hp ltac:(lra) E) as (risk0 & E0 & Hle & _).
  now exists risk0.
Qed.

Lemma diabetes_never_lowers_risk_witness :
  exists risk0,
    ascvd_10y_risk_pce 55 "female" "black" 213 50 120 false false false
      = ret risk0 /\
    risk0 <= risk_percent female_black
               (linear_predictor female_black 55 213 50 120
                  false false true).
Proof.
  apply (diabetes_never_lowers_risk Female Black 55 "female" "black"
           213 50 120 false false); [reflexivity|reflexivity|].
  apply (engine_value _ _ _ _ _ _ _ _ _ Female Black);
    [reflexivity|reflexivity|lra|lra|lra|lra|].
  apply (no_overflow_in_box Female Black). unfold in_box. lra.
Defined.

(** X2.  Up to the age of 78 smoking never pays, in each of the four
    buckets: whenever the engine returns a risk for a smoker, it returns
    one that is not larger for the same input without smoking. *)
Theorem smoking_never_lowers_risk_up_to_78 (s : Sex) (r : Race)
    (age : R) (sex race : string) (tc hdl sbp : R)
    (on_treatment diabetes : bool) (risk1 : R) :
  normalize sex = sex_name s -> normalize race = race_name r ->
  age <= 78 ->
  ascvd_10y_risk_pce age sex race tc hdl sbp on_treatment true diabetes
    = ret risk1 ->
  exists risk0,
    ascvd_10y_risk_pce age sex race tc hdl sbp on_treatment false diabetes
      = ret risk0 /\
    risk0 <= risk1.
Proof.
  intros Hs Hr Hage E.
  destruct (engine_returns_inv s r _ _ _ _ _ _ _ _ _ _ Hs Hr E)
    as (Ha & Ht & Hh & Hp).
  pose proof (linear_predictor_smoker (coefficient_set s r) age tc hdl sbp
                on_treatment diabetes) as D.
  assert (Hc : 0 < CSmoker (coefficient_set s r)
                   + CAgeSmoker (coefficient_set s r) * ln age).
  { pose proof (ln_monotone age 78 Ha Hage). pose proof ln_78_upper.
    destruct s, r; coefficients_values; lra. }
  destruct (engine_order s r sex race
              age tc hdl sbp on_treatment false diabetes
              age tc hdl sbp on_treatment true diabetes risk1
              Hs Hr Ha Ht Hh Hp ltac:(lra) E) as (risk0 & E0 & Hle & _).
  now exists risk0.
Qed.

Lemma smoking_never_lowers_risk_up_to_78_witness :
  exists risk0,
    ascvd_10y_risk_pce 78 "male" "white" 213 50 120 false false false
      = ret risk0 /\
    risk0 <= risk_percent male_white
               (linear_predictor male_white 78 213 50 120 false true false).
Proof.
  apply (smoking_never_lowers_risk_up_to_78 Male White 78 "male" "white"
           213 50 120 false false); [reflexivity|reflexivity|lra|].
  apply (engine_value _ _ _ _ _ _ _ _ _ Male White);
    [reflexivity|reflexivity|lra|lra|lra|lra|].
  apply (no_overflow_in_box Male White). unfold in_box. lra.
Defined.

(** X3.  With the white coefficients for men the effect of smoking changes
    sign inside the validated ages: from 79 on, whenever the engine
    returns a risk for a non-smoker, it returns one that is not larger
    for the same man as a smoker. *)
Theorem smoking_never_raises_risk_white_men_from_79 (r : Race)
    (age : R) (sex race : string) (tc hdl sbp : R)
    (on_treatment diabetes : bool) (risk0 : R) :
  normalize sex = "male" -> normalize race = race_name r -> r <> Black ->
  79 <= age ->
  ascvd_10y_risk_pce age sex race tc hdl sbp on_treatment false diabetes
    = ret risk0 ->
  exists risk1,
    ascvd_10y_risk_pce age sex race tc hdl sbp on_treatment true diabetes
      = ret risk1 /\
    risk1 <= risk0.
Proof.
  intros Hs Hr Hw Hage E.
  change "male" with (sex_name Male) in Hs.
  destruct (engine_returns_inv Male r _ _ _ _ _ _ _ _ _ _ Hs Hr E)
    as (Ha & Ht & Hh & Hp).
  pose proof (linear_predictor_smoker (coefficient_set Male r) age tc hdl sbp
                on_treatment diabetes) as D.
  assert (Hc : CSmoker (coefficient_set Male r)
               + CAgeSmoker (coefficient_set Male r) * ln age < 0).
  { pose proof (ln_monotone 79 age ltac:(lra) Hage). pose proof ln_79_lower.
    destruct r; [| now destruct Hw |]; coefficients_values; lra. }
  destruct (engine_order Male r sex race
              age tc hdl sbp on_treatment true diabetes
              age tc hdl sbp on_treatment false diabetes risk0
              Hs Hr Ha Ht Hh Hp ltac:(lra) E) as (risk1 & E1 & Hle & _).
  now exists risk1.
Qed.

Lemma smoking_never_raises_risk_white_men_from_79_witness :
  exists risk1,
    ascvd_10y_risk_pce 79 "male" "white" 213 50 120 false true false
      = ret risk1 /\
    risk1 <= risk_percent male_white
               (linear_predictor male_white 79 213 50 120
                  false false false).
Proof.
  apply (smoking_never_raises_risk_white_men_from_79 White 79
           "male" "white" 213 50 120 false false);
    [reflexivity|reflexivity|discriminate|lra|].
  apply (engine_value _ _ _ _ _ _ _ _ _ Male White);
    [reflexivity|reflexivity|lra|lra|lra|lra|].
  apply (no_overflow_in_box Male White). unfold in_box. lra.
Defined.

(** X4.  Up to the age of 77, more total cholesterol never pays, in each
    of the four buckets: for two values of the form, 100 to 400, at least
    one step apart, whenever the engine returns a risk at the higher
    value, it returns one that is not larger at the lower value, all
    else fixed. *)
Theorem cholesterol_never_lowers_risk_up_to_77 (s : Sex) (r : Race)
    (age : R) (sex race : string) (tc1 tc2 hdl sbp : R)
    (on_treatment smoker diabetes : bool) (risk2 : R) :
  normalize sex = sex_name s -> normalize race = race_name r ->
  age <= 77 ->
  Form.accepts Form.tc_input tc1 -> Form.accepts Form.tc_input tc2 ->
  tc1 + 1 <= tc2 ->
  ascvd_10y_risk_pce age sex race tc2 hdl sbp on_treatment smoker diabetes
    = ret risk2 ->
  exists risk1,
    ascvd_10y_risk_pce age sex race tc1 hdl sbp on_treatment smoker diabetes
      = ret risk1 /\
    risk1 <= risk2.
Proof.
  intros Hs Hr Hage [Ht1 _] _ Ht12 E. cbn in Ht1.
  destruct (engine_returns_inv s r _ _ _ _ _ _ _ _ _ _ Hs Hr E)
    as (Ha & Ht & Hh & Hp).
  pose proof (linear_predictor_tc (coefficient_set s r) age tc1 tc2 hdl sbp
                on_treatment smoker diabetes) as D.
  assert (Hc : 0 < CTotalChol (coefficient_set s r)
                   + CAgeTotalChol (coefficient_set s r) * ln age).
  { pose proof (ln_monotone age 77 Ha Hage). pose proof ln_77_upper.
    destruct s, r; coefficients_values; lra. }
  assert (Hln : ln tc1 < ln tc2) by (apply ln_increasing; lra).
  assert (HL : linear_predictor (coefficient_set s r) age tc1 hdl sbp
                 on_treatment smoker diabetes
               <= linear_predictor (coefficient_set s r) age tc2 hdl sbp
                    on_treatment smoker diabetes) by nra.
  destruct (engine_order s r sex race
              age tc1 hdl sbp on_treatment smoker diabetes
              age tc2 hdl sbp on_treatment smoker diabetes risk2
              Hs Hr Ha ltac:(lra) Hh Hp HL E) as (risk1 & E1 & Hle & _).
  now exists risk1.
Qed.

Lemma cholesterol_never_lowers_risk_up_to_77_witness :
  exists risk1,
    ascvd_10y_risk_pce 77 "female" "white" 399 50 120 false false false
      = ret risk1 /\
    risk1 <= risk_percent female_white
               (linear_predictor female_white 77 400 50 120
                  false false false).
Proof.
  apply (cholesterol_never_lowers_risk_up_to_77 Female White 77
           "female" "white" 399 400 50 120 false false false);
    [reflexivity|reflexivity|lra| | |lra|].
  - unfold Form.accepts. cbn. lra.
  - unfold Form.accepts. cbn. lra.
  - apply (engine_value _ _ _ _ _ _ _ _ _ Female White);
      [reflexivity|reflexivity|lra|lra|lra|lra|].
    apply (no_overflow_in_box Female White). unfold in_box. lra.
Defined.

(** X5.  With the white coefficients for women the effect of total
    cholesterol changes sign inside the validated ages: from 78 on, for
    two values of the form at least one step apart, whenever the engine
    returns a risk at the lower value, it returns one that is not larger
    at the higher value. *)
Theorem cholesterol_never_raises_risk_white_women_from_78 (r : Race)
    (age : R) (sex race : string) (tc1 tc2 hdl sbp : R)
    (on_treatment smoker diabetes : bool) (risk1 : R) :
  normalize sex = "female" -> normalize race = race_name r -> r <> Black ->
  78 <= age ->
  Form.accepts Form.tc_input tc1 -> Form.accepts Form.tc_input tc2 ->
  tc1 + 1 <= tc2 ->
  ascvd_10y_risk_pce age sex race tc1 hdl sbp on_treatment smoker diabetes
    = ret risk1 ->
  exists risk2,
    ascvd_10y_risk_pce age sex race tc2 hdl sbp on_treatment smoker diabetes
      = ret risk2 /\
    risk2 <= risk1.
Proof.
  intros Hs Hr Hw Hage [Ht1 _] _ Ht12 E. cbn in Ht1.
  change "female" with (sex_name Female) in Hs.
  destruct (engine_returns_inv Female r _ _ _ _ _ _ _ _ _ _ Hs Hr E)
    as (Ha & Ht & Hh & Hp).
  pose proof (linear_predictor_tc (coefficient_set Female r) age tc1 tc2
                hdl sbp on_treatment smoker diabetes) as D.
  assert (Hc : CTotalChol (coefficient_set Female r)
               + CAgeTotalChol (coefficient_set Female r) * ln age < 0).
  { pose proof (ln_monotone 78 age ltac:(lra) Hage). pose proof ln_78_lower.
    destruct r; [| now destruct Hw |]; coefficients_values; lra. }
  assert (Hln : ln tc1 < ln tc2) by (apply ln_increasing; lra).
  assert (HL : linear_predictor (coefficient_set Female r) age tc2 hdl sbp
                 on_treatment smoker diabetes
               <= linear_predictor (coefficient_set Female r) age tc1 hdl sbp
                    on_treatment smoker diabetes) by nra.
  destruct (engine_order Female r sex race
              age tc2 hdl sbp on_treatment smoker diabetes
              age tc1 hdl sbp on_treatment smoker diabetes risk1
              Hs Hr Ha ltac:(lra) Hh Hp HL E)
    as (risk2 & E2 & Hle & _).
  now exists risk2.
Qed.

Lemma cholesterol_never_raises_risk_white_women_from_78_witness :
  exists risk2,
    ascvd_10y_risk_pce 78 "female" "other" 240 50 120 false false false
      = ret risk2 /\
    risk2 <= risk_percent female_white
               (linear_predictor female_white 78 180 50 120
                  false false false).
Proof.
  apply (cholesterol_never_raises_risk_white_women_from_78 Other 78
           "female" "other" 180 240 50 120 false false false);
    [reflexivity|reflexivity|discriminate|lra| | |lra|].
  - unfold Form.accepts. cbn. lra.
  - unfold Form.accepts. cbn. lra.
  - apply (engine_value _ _ _ _ _ _ _ _ _ Female Other);
      [reflexivity|reflexivity|lra|lra|lra|lra|].
    apply (no_overflow_in_box Female Other). unfold in_box. lra.
Defined.

(** X6.  Up to the age of 94, a higher systolic pressure never pays, in
    each of the four buckets, treated or not: for two pressures of the
    form, 80 to 250, at least one step apart, whenever the engine returns
    a risk at the higher pressure, it returns one that is not larger at
    the lower pressure, all else fixed. *)
Theorem pressure_never_lowers_risk_up_to_94 (s : Sex) (r : Race)
    (age : R) (sex race : string) (tc hdl sbp1 sbp2 : R)
    (on_treatment smoker diabetes : bool) (risk2 : R) :
  normalize sex = sex_name s -> normalize race = race_name r ->
  age <= 94 ->
  Form.accepts Form.sbp_input sbp1 -> Form.accepts Form.sbp_input sbp2 ->
  sbp1 + 1 <= sbp2 ->
  ascvd_10y_risk_pce age sex race tc hdl sbp2 on_treatment smoker diabetes
    = ret risk2 ->
  exists risk1,
    ascvd_10y_risk_pce age sex race tc hdl sbp1 on_treatment smoker diabetes
      = ret risk1 /\
    risk1 <= risk2.
Proof.
  intros Hs Hr Hage [Hp1 _] _ Hp12 E. cbn in Hp1.
  destruct (engine_returns_inv s r _ _ _ _ _ _ _ _ _ _ Hs Hr E)
    as (Ha & Ht & Hh & Hp).
  pose proof (linear_predictor_sbp (coefficient_set s r) age tc hdl sbp1 sbp2
                on_treatment smoker diabetes) as D.
  assert (Hc : 0 < (if on_treatment
                    then COnHypertensionMeds (coefficient_set s r)
                         + CAgeOnHypertensionMeds (coefficient_set s r)
                           * ln age
                    else COffHypertensionMeds (coefficient_set s r)
                         + CAgeOffHypertensionMeds (coefficient_set s r)
                           * ln age)).
  { pose proof (ln_monotone age 94 Ha Hage). pose proof ln_94_upper.
    destruct s, r, on_treatment; coefficients_values; lra. }
  assert (Hln : ln sbp1 < ln sbp2) by (apply ln_increasing; lra).
  assert (HL : linear_predictor (coefficient_set s r) age tc hdl sbp1
                 on_treatment smoker diabetes
               <= linear_predictor (coefficient_set s r) age tc hdl sbp2
                    on_treatment smoker diabetes) by nra.
  destruct (engine_order s r sex race
              age tc hdl sbp1 on_treatment smoker diabetes
              age tc hdl sbp2 on_treatment smoker diabetes risk2
              Hs Hr Ha Ht Hh ltac:(lra) HL E) as (risk1 & E1 & Hle & _).
  now exists risk1.
Qed.

Lemma pressure_never_lowers_risk_up_to_94_witness :
  exists risk1,
    ascvd_10y_risk_pce 60 "female" "black" 213 50 120 true false false
      = ret risk1 /\
    risk1 <= risk_percent female_black
               (linear_predictor female_black 60 213 50 121
                  true false false).
Proof.
  apply (pressure_never_lowers_risk_up_to_94 Female Black 60
           "female" "black" 213 50 120 121 true false false);
    [reflexivity|reflexivity|lra| | |lra|].
  - unfold Form.accepts. cbn. lra.
  - unfold Form.accepts. cbn. lra.
  - apply (engine_value _ _ _ _ _ _ _ _ _ Female Black);
      [reflexivity|reflexivity|lra|lra|lra|lra|].
    apply (no_overflow_in_box Female Black). unfold in_box. lra.
Defined.

(** X7.  At one measured pressure of at least 1 mmHg and up to the age of
    71, a pressure under treatment never counts for less than the same
    pressure untreated: whenever the engine returns a risk for the treated
    input, it returns one that is not larger for the untreated input. *)
Theorem treatment_never_lowers_risk_up_to_71 (s : Sex) (r : Race)
    (age : R) (sex race : string) (tc hdl sbp : R)
    (smoker diabetes : bool) (risk1 : R) :
  normalize sex = sex_name s -> normalize race = race_name r ->
  age <= 71 -> 1 <= sbp ->
  ascvd_10y_risk_pce age sex race tc hdl sbp true smoker diabetes
    = ret risk1 ->
  exists risk0,
    ascvd_10y_risk_pce age sex race tc hdl sbp false smoker diabetes
      = ret risk0 /\
    risk0 <= risk1.
Proof.
  intros Hs Hr Hage Hsbp E.
  destruct (engine_returns_inv s r _ _ _ _ _ _ _ _ _ _ Hs Hr E)
    as (Ha & Ht & Hh & Hp).
  pose proof (linear_predictor_treatment (coefficient_set s r) age tc hdl sbp
                smoker diabetes) as D.
  assert (Hc : 0 < COnHypertensionMeds (coefficient_set s r)
                   - COffHypertensionMeds (coefficient_set s r)
                   + (CAgeOnHypertensionMeds (coefficient_set s r)
                      - CAgeOffHypertensionMeds (coefficient_set s r))
                     * ln age).
  { pose proof (ln_monotone age 71 Ha Hage). pose proof ln_71_upper.
    destruct s, r; coefficients_values; lra. }
  pose proof (ln_nonneg sbp Hsbp) as Hln.
  assert (HL : linear_predictor (coefficient_set s r) age tc hdl sbp
                 false smoker diabetes
               <= linear_predictor (coefficient_set s r) age tc hdl sbp
                    true smoker diabetes) by nra.
  destruct (engine_order s r sex race
              age tc hdl sbp false smoker diabetes
              age tc hdl sbp true smoker diabetes risk1
              Hs Hr Ha Ht Hh Hp HL E) as (risk0 & E0 & Hle & _).
  now exists risk0.
Qed.

Lemma treatment_never_lowers_risk_up_to_71_witness :
  exists risk0,
    ascvd_10y_risk_pce 71 "female" "black" 213 50 140 false false false
      = ret risk0 /\
    risk0 <= risk_percent female_black
               (linear_predictor female_black 71 213 50 140 true false false).
Proof.
  apply (treatment_never_lowers_risk_up_to_71 Female Black 71
           "female" "black" 213 50 140 false false);
    [reflexivity|reflexivity|lra|lra|].
  apply (engine_value _ _ _ _ _ _ _ _ _ Female Black);
    [reflexivity|reflexivity|lra|lra|lra|lra|].
  apply (no_overflow_in_box Female Black). unfold in_box. lra.
Defined.

(** ** Normalising twice *)

Lemma lower_char_idempotent c :
  PyStr.lower_char (PyStr.lower_char c) = PyStr.lower_char c.
Proof. each_char c; reflexivity. Qed.

Lemma is_space_lower_char c :
  PyStr.is_space (PyStr.lower_char c) = PyStr.is_space c.
Proof. each_char c; reflexivity. Qed.

Lemma lower_idempotent s : PyStr.lower (PyStr.lower s) = PyStr.lower s.
Proof.
  induction s as [|c s IH]; cbn; [reflexivity|].
  now rewrite lower_char_idempotent, IH.
Qed.

Lemma lower_lstrip s :
  PyStr.lower (PyStr.lstrip s) = PyStr.lstrip (PyStr.lower s).
Proof.
  induction s as [|c s IH]; cbn; [reflexivity|].
  rewrite is_space_lower_char. destruct (PyStr.is_space c); [exact IH|].
  reflexivity.
Qed.

Lemma lower_rstrip s :
  PyStr.lower (PyStr.rstrip s) = PyStr.rstrip (PyStr.lower s).
Proof.
  induction s as [|c s IH]; cbn; [reflexivity|].
  rewrite <- IH, is_space_lower_char.
  destruct (PyStr.rstrip s); cbn; [|reflexivity].
  destruct (PyStr.is_space c); reflexivity.
Qed.

Lemma lower_strip s :
  PyStr.lower (PyStr.strip s) = PyStr.strip (PyStr.lower s).
Proof. unfold PyStr.strip. now rewrite lower_rstrip, lower_lstrip. Qed.

Lemma lstrip_no_leading_space s :
  no_leading_space (PyStr.lstrip s) = true.
Proof.
  induction s as [|c s IH]; cbn; [reflexivity|].
  destruct (PyStr.is_space c) eqn:E; [exact IH|]. cbn. now rewrite E.
Qed.

Lemma lstrip_fixed s : no_leading_space s = true -> PyStr.lstrip s = s.
Proof.
  destruct s as [|c s]; cbn; [reflexivity|].
  now destruct (PyStr.is_space c).
Qed.

Lemma rstrip_no_leading_space s :
  no_leading_space s = true -> no_leading_space (PyStr.rstrip s) = true.
Proof.
  destruct s as [|c s]; cbn; [reflexivity|]. intros H.
  destruct (PyStr.rstrip s); destruct (PyStr.is_space c) eqn:Ec;
    try discriminate H; cbn; now rewrite Ec.
Qed.

Lemma rstrip_cons c s :
  PyStr.rstrip (String c s) =
  match PyStr.rstrip s with
  | EmptyString =>
      if PyStr.is_space c then EmptyString else String c EmptyString
  | r => String c r
  end.
Proof. reflexivity. Qed.

Lemma rstrip_idempotent s : PyStr.rstrip (PyStr.rstrip s) = PyStr.rstrip s.
Proof.
  induction s as [|c s IH]; [reflexivity|].
  rewrite rstrip_cons.
  destruct (PyStr.rstrip s) as [|d t] eqn:E.
  - destruct (PyStr.is_space c) eqn:Ec; [reflexivity|].
    rewrite rstrip_cons. cbn. now rewrite Ec.
  - rewrite rstrip_cons, IH. reflexivity.
Qed.

Lemma strip_idempotent s : PyStr.strip (PyStr.strip s) = PyStr.strip s.
Proof.
  unfold PyStr.strip.
  rewrite (lstrip_fixed (PyStr.rstrip (PyStr.lstrip s))).
  - apply rstrip_idempotent.
  - apply rstrip_no_leading_space, lstrip_no_leading_space.
Qed.

Lemma normalize_idempotent s : normalize (normalize s) = normalize s.
Proof.
  unfold normalize.
  now rewrite lower_strip, lower_idempotent, strip_idempotent.
Qed.

(** X8.  The normalisation of the engine is idempotent and leaves no
    whitespace at either end: a caller that lowers and strips the sex and
    the race itself gets the same outcome as one that passes them raw. *)
Theorem engine_accepts_normalized :
  (forall s : string,
     normalize (normalize s) = normalize s /\
     PyStr.lstrip (normalize s) = normalize s /\
     PyStr.rstrip (normalize s) = normalize s) /\
  (forall (age : R) (sex race : string) (tc hdl sbp : R)
          (on_treatment smoker diabetes : bool),
     ascvd_10y_risk_pce age (normalize sex) (normalize race) tc hdl sbp
       on_treatment smoker diabetes
     = ascvd_10y_risk_pce age sex race tc hdl sbp
         on_treatment smoker diabetes).
Proof.
  split.
  - intros s. split; [apply normalize_idempotent|split].
    + unfold normalize, PyStr.strip. apply lstrip_fixed.
      apply rstrip_no_leading_space, lstrip_no_leading_space.
    + unfold normalize, PyStr.strip. apply rstrip_idempotent.
  - intros. rewrite !ascvd_stages.
    now rewrite (lookup_normalize (normalize sex) (normalize race) sex race
                   (normalize_idempotent sex) (normalize_idempotent race)).
Qed.

(** ** The conditions of each outcome *)

(** X9.  The order of the checks: the domain error of [math.log] is
    raised exactly when the sex and the race are recognized and one of
    the four numbers is at most zero, so an unknown sex or race is
    reported first and a non-positive number before any overflow; an
    [OverflowError] or a returned risk means that the sex and the race
    were recognized and the four numbers strictly positive. *)
Theorem engine_outcome_conditions (age : R) (sex race : string)
    (tc hdl sbp : R) (on_treatment smoker diabetes : bool) :
  let out :=
    ascvd_10y_risk_pce age sex race tc hdl sbp on_treatment smoker diabetes in
  (out = raise domain_error <->
   recognized_sex sex /\ recognized_race race /\
   (age <= 0 \/ tc <= 0 \/ hdl <= 0 \/ sbp <= 0)) /\
  (out = raise range_error \/ (exists risk, out = ret risk) ->
   recognized_sex sex /\ recognized_race race /\
   0 < age /\ 0 < tc /\ 0 < hdl /\ 0 < sbp).
Proof.
  intros out.
  destruct (engine_outcome age sex race tc hdl sbp
              on_treatment smoker diabetes)
    as [N E|Hr N E|s r Hs Hr Hn E|s r Hs Hr Ha Ht Hh Hp Ho E
        |s r Hs Hr Ha Ht Hh Hp Ho E];
    fold out in E; rewrite E; split.
  - split; [intros H; discriminate H|]. intros (_ & Hr & _). now destruct N.
  - intros [H|[risk H]]; discriminate H.
  - split; [intros H; discriminate H|]. intros (Hs & _ & _). now destruct N.
  - intros [H|[risk H]]; discriminate H.
  - split; [|reflexivity]. intros _.
    split; [now exists s|split; [now exists r|assumption]].
  - intros [H|[risk H]]; discriminate H.
  - split; [intros H; discriminate H|]. intros (_ & _ & Hn). lra.
  - intros _. split; [now exists s|split; [now exists r|tauto]].
  - split; [intros H; discriminate H|]. intros (_ & _ & Hn). lra.
  - intros _. split; [now exists s|split; [now exists r|tauto]].
Qed.

(** ** What the page shows *)



Section PageOutcomes.

Variables (age : R) (sex race : string) (tc hdl sbp : R).
Variables on_treatment smoker diabetes : bool.

Let c := coefficient_set (page_sex sex) (page_race race).
Let L := linear_predictor c age tc hdl sbp on_treatment smoker diabetes.




End PageOutcomes.



